(** * Greeter: a verified model of [hello.py]

    The repository is one Python module, [hello.py], with two functions and a
    direct-invocation guard, and a unittest suite, [test_hello.py].

    - [hello()] prints a fixed greeting;
    - [hello_name(name)] returns [f"Hello, {name}!"];
    - under [if __name__ == "__main__":] the module calls [hello()] and then
      prints [hello_name("Developer")].

    A Python [str] is modelled as a [string]; the interpreter process is a
    record holding the module's global namespace and the text written to
    standard output so far; statements are computations in a small
    state-and-exception monad [Py]. *)

From Stdlib Require Import String Ascii List Lia.
From stdpp Require Import base gmap strings.

Module Greeter.

(** ** Strings *)

(** The line terminator that [print] appends (its default [end="\n"]). *)
Definition newline : string := String (ascii_of_nat 10) EmptyString.

(** An f-string is evaluated piecewise: every replacement field is formatted,
    then the literal pieces and the formatted fields are joined. *)

(** [format(value, "")] on a [str]: with an empty format specification
    [str.__format__] returns the string itself. *)
Definition format_value (value : string) : string := value.

(** Joining the pieces of an f-string, left to right. *)
Definition build_string (pieces : list string) : string :=
  foldr String.append EmptyString pieces.

(** [hello.py], lines 6-15:
<<
    def hello_name(name: str) -> str:
        return f"Hello, {name}!"
>> *)
Definition hello_name (name : string) : string :=
  build_string ["Hello, "; format_value name; "!"]%string.

(** Python's slice [s[start:stop]] for [0 <= start], on a non-negative
    [stop]; used to read a greeting back. *)
Definition slice (s : string) (start stop : nat) : string :=
  substring start (stop - start) s.

(** [greeting[7:-1]]: the greeting without its first seven characters and
    without its last one. *)
Definition strip_greeting (greeting : string) : string :=
  slice greeting 7 (String.length greeting - 1).

(** Number of line terminators in a text, that is, the number of complete
    lines it holds. *)
Fixpoint count_lines (text : string) : nat :=
  match text with
  | EmptyString => 0
  | String c rest =>
      (if Ascii.eqb c (ascii_of_nat 10) then 1 else 0) + count_lines rest
  end.

(** ** The interpreter process *)

(** The two function objects the module defines. *)
Inductive func : Type :=
  | FnHello
  | FnHelloName.

(** The Python values that occur in the module. *)
Inductive value : Type :=
  | VNone
  | VStr (s : string)
  | VFunc (f : func).

Inductive exn : Type :=
  | NameError (name : string).

Inductive outcome (A : Type) : Type :=
  | Returned (a : A)
  | Raised (e : exn).
Arguments Returned {A} a.
Arguments Raised {A} e.

(** What a statement can observe and change: the module's globals and the
    text already written to [sys.stdout]. *)
Record process : Type := Process {
  globals : gmap string value;
  stdout : string
}.

Definition Py (A : Type) : Type := process -> outcome A * process.

#[export] Instance Py_ret : MRet Py :=
  fun A (a : A) p => (Returned a, p).

#[export] Instance Py_bind : MBind Py :=
  fun A B (k : A -> Py B) (c : Py A) p =>
    match c p with
    | (Returned a, p') => k a p'
    | (Raised e, p') => (Raised e, p')
    end.

(** [sys.stdout.write(text)] *)
Definition write_stdout (text : string) : Py unit :=
  fun p => (Returned tt,
            {| globals := globals p; stdout := stdout p +:+ text |}).

(** [print(s)] for one [str] argument: the text, then the terminator. *)
Definition print (s : string) : Py unit :=
  write_stdout s ;; write_stdout newline.

(** Reading a global name; an unbound name raises [NameError]. *)
Definition load_global (x : string) : Py value :=
  fun p => match globals p !! x with
           | Some v => (Returned v, p)
           | None => (Raised (NameError x), p)
           end.

(** Binding a global name, as [def] does. *)
Definition store_global (x : string) (v : value) : Py unit :=
  fun p => (Returned tt,
            {| globals := <[x := v]> (globals p); stdout := stdout p |}).

(** [v == s] for a string literal [s]: only an equal [str] compares equal. *)
Definition eq_str (v : value) (s : string) : bool :=
  match v with
  | VStr t => String.eqb t s
  | _ => false
  end.

(** ** The module *)

(** [hello.py], lines 1-3:
<<
    def hello():
        print("Hello, World!")
>>
    The function falls off its end, so it returns [None], here [tt]. *)
Definition hello : Py unit :=
  print "Hello, World!".

(** [hello.py], lines 18-20, the guarded block. *)
Definition main : Py unit :=
  hello ;; print (hello_name "Developer").

(** The whole module body, top to bottom: the two [def]s bind their names,
    then the guard reads [__name__]. *)
Definition module_body : Py unit :=
  store_global "hello" (VFunc FnHello) ;;
  store_global "hello_name" (VFunc FnHelloName) ;;
  name ← load_global "__name__" ;
  if eq_str name "__main__" then main else mret tt.

(** ** Calling the functions from outside *)

(** A call a client of the module can make. *)
Inductive call : Type :=
  | CallHello
  | CallHelloName (name : string).

Definition exec_call (c : call) : Py value :=
  match c with
  | CallHello => hello ;; mret VNone
  | CallHelloName name => mret (VStr (hello_name name))
  end.

(** A sequence of calls, one after the other, collecting the results. *)
Fixpoint exec_calls (cs : list call) : Py (list value) :=
  match cs with
  | [] => mret []
  | c :: rest =>
      v ← exec_call c ;
      vs ← exec_calls rest ;
      mret (v :: vs)
  end.

(** A process that has done nothing yet: no global bound, nothing written. *)
Definition fresh : process := {| globals := ∅; stdout := "" |}.

(** What a call returns and writes when it is the only thing that runs. *)
Definition isolated_result (c : call) : outcome value :=
  fst (exec_call c fresh).

Definition isolated_output (c : call) : string :=
  stdout (snd (exec_call c fresh)).

(** The process after [text] more has been written to standard output. *)
Definition after_output (p : process) (text : string) : process :=
  {| globals := globals p; stdout := stdout p +:+ text |}.

(** The process once both [def] statements have run. *)
Definition with_defs (p : process) : process :=
  {| globals := <["hello_name" := VFunc FnHelloName]>
                  (<["hello" := VFunc FnHello]> (globals p));
     stdout := stdout p |}.

(** How many of the calls of a sequence are calls of [hello]. *)
Fixpoint count_hello (cs : list call) : nat :=
  match cs with
  | [] => 0
  | CallHello :: rest => S (count_hello rest)
  | CallHelloName _ :: rest => count_hello rest
  end.

(** ** Facts about strings *)

Section StringFacts.

Implicit Types s t u : string.

Lemma string_app_cons a s t : String a s +:+ t = String a (s +:+ t).
Proof. reflexivity. Qed.

Lemma string_app_nil_r s : s +:+ "" = s.
Proof.
  induction s as [|a s IH]; [reflexivity|].
  rewrite string_app_cons, IH. reflexivity.
Qed.

Lemma string_app_assoc s t u : (s +:+ t) +:+ u = s +:+ (t +:+ u).
Proof.
  induction s as [|a s IH]; [reflexivity|].
  rewrite !string_app_cons, IH. reflexivity.
Qed.

Lemma string_app_length s t :
  String.length (s +:+ t) = String.length s + String.length t.
Proof.
  induction s as [|a s IH]; [reflexivity|].
  rewrite string_app_cons. simpl. rewrite IH. reflexivity.
Qed.

(** Reading [length s] characters from the start of [s +:+ t] gives [s]. *)
Lemma substring_app_prefix s t :
  substring 0 (String.length s) (s +:+ t) = s.
Proof.
  induction s as [|a s IH].
  - destruct t; reflexivity.
  - rewrite string_app_cons. simpl. rewrite IH. reflexivity.
Qed.

Lemma count_lines_app s t :
  count_lines (s +:+ t) = count_lines s + count_lines t.
Proof.
  induction s as [|a s IH]; [reflexivity|].
  rewrite string_app_cons. simpl. rewrite IH. lia.
Qed.

End StringFacts.

(** ** Facts about [hello_name] *)

Lemma hello_name_unfold name :
  hello_name name = "Hello, " +:+ name +:+ "!".
Proof.
  unfold hello_name, build_string, format_value. simpl.
  rewrite string_app_nil_r. reflexivity.
Qed.

Lemma hello_name_length name :
  String.length (hello_name name) = String.length name + 8.
Proof.
  rewrite hello_name_unfold, !string_app_length. simpl. lia.
Qed.

(** The name sits in the greeting unchanged, from offset 7 on. *)
Lemma hello_name_payload name :
  substring 7 (String.length name) (hello_name name) = name.
Proof.
  rewrite hello_name_unfold.
  change (substring 0 (String.length name) (name +:+ "!") = name).
  apply substring_app_prefix.
Qed.

Lemma strip_greeting_hello_name name :
  strip_greeting (hello_name name) = name.
Proof.
  unfold strip_greeting, slice. rewrite hello_name_length.
  replace (String.length name + 8 - 1 - 7) with (String.length name) by lia.
  apply hello_name_payload.
Qed.

(** ** Facts about the process *)

Lemma after_output_nil p : after_output p "" = p.
Proof.
  destruct p as [g out]. unfold after_output. simpl.
  rewrite string_app_nil_r. reflexivity.
Qed.

Lemma after_output_app p t u :
  after_output (after_output p t) u = after_output p (t +:+ u).
Proof.
  unfold after_output. simpl. rewrite string_app_assoc. reflexivity.
Qed.

Lemma print_run s p : print s p = (Returned tt, after_output p (s +:+ newline)).
Proof.
  unfold print, after_output, write_stdout, mbind, Py_bind. simpl.
  rewrite string_app_assoc. reflexivity.
Qed.

Lemma hello_run p :
  hello p = (Returned tt, after_output p ("Hello, World!" +:+ newline)).
Proof. apply print_run. Qed.

Lemma main_run p :
  main p = (Returned tt,
            after_output p ("Hello, World!" +:+ newline +:+
                            "Hello, Developer!" +:+ newline)).
Proof.
  unfold main, mbind, Py_bind. rewrite hello_run, print_run.
  rewrite after_output_app, string_app_assoc. reflexivity.
Qed.

Lemma with_defs_name p : globals (with_defs p) !! "__name__" = globals p !! "__name__".
Proof.
  unfold with_defs. simpl.
  rewrite !lookup_insert_ne by discriminate. reflexivity.
Qed.

(** The guard reads the [__name__] the module was given: the [def]s before
    it bind other names. *)
Lemma module_body_guard p v :
  globals p !! "__name__" = Some v ->
  module_body p = (if eq_str v "__main__" then main else mret tt) (with_defs p).
Proof.
  intros Hname.
  unfold module_body, mbind, Py_bind, store_global, load_global.
  cbn [globals stdout].
  fold (with_defs p).
  change (<["hello_name":=VFunc FnHelloName]> (<["hello":=VFunc FnHello]> (globals p)))
    with (globals (with_defs p)).
  rewrite with_defs_name, Hname. reflexivity.
Qed.

Lemma exec_call_run c p :
  exec_call c p = (isolated_result c, after_output p (isolated_output c)).
Proof.
  destruct c as [|name].
  - unfold exec_call, mbind, Py_bind. rewrite hello_run. reflexivity.
  - unfold isolated_result, isolated_output, exec_call. simpl.
    rewrite after_output_nil. reflexivity.
Qed.

(** ** The unit tests of [test_hello.py] *)

Example test_hello_name_returns_correct_greeting :
  hello_name "Alice" = "Hello, Alice!".
Proof. reflexivity. Qed.

Example test_hello_name_with_empty_string :
  hello_name "" = "Hello, !".
Proof. reflexivity. Qed.

Example test_hello_name_with_special_characters :
  hello_name "Bob-O'Connor" = "Hello, Bob-O'Connor!".
Proof. reflexivity. Qed.

(** ** The specification *)

(** C1. For every string [s], [hello_name s] is exactly ["Hello, "], then [s],
    then ["!"]: the name is neither transformed, validated nor escaped. *)
Theorem hello_name_concat (s : string) :
  hello_name s = "Hello, " +:+ s +:+ "!".
Proof. apply hello_name_unfold. Qed.

(** C2. Run as a script (its [__name__] is ["__main__"]), the module first
    emits the default greeting and then prints [hello_name "Developer"]; what
    it adds to standard output is exactly the two lines [Hello, World!] and
    [Hello, Developer!], each followed by a line terminator. *)
Theorem script_transcript (p : process) :
  globals p !! "__name__" = Some (VStr "__main__") ->
  module_body p = (hello ;; print (hello_name "Developer")) (with_defs p)
  /\ module_body p =
       (Returned tt,
        after_output (with_defs p)
          ("Hello, World!" +:+ newline +:+ "Hello, Developer!" +:+ newline))
  /\ count_lines
       ("Hello, World!" +:+ newline +:+ "Hello, Developer!" +:+ newline) = 2.
Proof.
  intros Hname.
  rewrite (module_body_guard p _ Hname). simpl.
  split; [reflexivity|]. split; [apply main_run | reflexivity].
Qed.

Lemma script_transcript_witness :
  let p := {| globals := {["__name__" := VStr "__main__"]}; stdout := "" |} in
  globals p !! "__name__" = Some (VStr "__main__")
  /\ stdout (snd (module_body p)) =
       "Hello, World!" +:+ newline +:+ "Hello, Developer!" +:+ newline.
Proof.
  intros p.
  assert (Hname : globals p !! "__name__" = Some (VStr "__main__"))
    by reflexivity.
  split; [exact Hname|].
  destruct (script_transcript p Hname) as (_ & Hrun & _).
  rewrite Hrun. reflexivity.
Defined.

(** C3. [hello] takes no argument; in every process it returns [None] and
    appends to standard output the text [Hello, World!] and a line
    terminator, one line and no more. *)
Theorem hello_emits_one_line (p : process) :
  hello p = (Returned tt, after_output p ("Hello, World!" +:+ newline))
  /\ globals (snd (hello p)) = globals p
  /\ count_lines (stdout (snd (hello p))) = count_lines (stdout p) + 1.
Proof.
  rewrite hello_run. simpl.
  split; [reflexivity|]. split; [reflexivity|].
  rewrite count_lines_app. reflexivity.
Qed.

(** C4. [hello_name] is pure: calls with equal names return equal results
    whatever the processes they run in, and a call leaves the process, its
    standard output included, as it found it. *)
Theorem hello_name_pure (s t : string) (p q : process) :
  s = t ->
  fst (exec_call (CallHelloName s) p) = fst (exec_call (CallHelloName t) q)
  /\ snd (exec_call (CallHelloName s) p) = p
  /\ stdout (snd (exec_call (CallHelloName s) p)) = stdout p.
Proof.
  intros ->. rewrite !exec_call_run. cbn [fst snd].
  change (isolated_output (CallHelloName t)) with "".
  rewrite after_output_nil. auto.
Qed.

Lemma hello_name_pure_witness :
  let p := fresh in
  let q := after_output fresh "earlier output" in
  "Alice" = "Alice"
  /\ fst (exec_call (CallHelloName "Alice") p) = Returned (VStr "Hello, Alice!")
  /\ fst (exec_call (CallHelloName "Alice") q) = Returned (VStr "Hello, Alice!")
  /\ snd (exec_call (CallHelloName "Alice") q) = q.
Proof.
  intros p q.
  destruct (hello_name_pure "Alice" "Alice" q p eq_refl) as (Hres & Hproc & _).
  split; [reflexivity|]. split; [reflexivity|].
  split; [rewrite Hres; reflexivity | exact Hproc].
Defined.

(** C5. [hello_name] cannot fail: called on any string, in any process, it
    returns a string and raises nothing. *)
Theorem hello_name_total (s : string) (p : process) :
  (exists r, fst (exec_call (CallHelloName s) p) = Returned (VStr r))
  /\ (forall e, fst (exec_call (CallHelloName s) p) <> Raised e).
Proof.
  rewrite exec_call_run. simpl. split.
  - exists (hello_name s). reflexivity.
  - intros e. discriminate.
Qed.

(** C6. The empty string is accepted, and [hello_name ""] is ["Hello, !"]. *)
Theorem hello_name_empty (p : process) :
  hello_name "" = "Hello, !"
  /\ exec_call (CallHelloName "") p = (Returned (VStr "Hello, !"), p).
Proof. split; reflexivity. Qed.

(** C7. Special characters pass through unmodified:
    [hello_name "Bob-O'Connor"] is ["Hello, Bob-O'Connor!"], and whatever the
    characters of [s], the greeting holds [s] itself from offset 7 on. *)
Theorem hello_name_special_characters (s : string) :
  hello_name "Bob-O'Connor" = "Hello, Bob-O'Connor!"
  /\ substring 7 (String.length s) (hello_name s) = s.
Proof. split; [reflexivity | apply hello_name_payload]. Qed.

(** C8. Both operations are stateless. Every call, in whatever process the
    calls before it have left, returns what it returns on its own and writes
    what it writes on its own: a [hello_name] call its greeting and nothing
    to standard output, a [hello] call [None] and the one line
    [Hello, World!]. So a finite sequence of calls returns the results of its
    calls taken one by one and appends their outputs in order. *)
Theorem calls_stateless :
  (forall (c : call) (p : process),
     exec_call c p = (isolated_result c, after_output p (isolated_output c)))
  /\ (forall name : string,
        isolated_result (CallHelloName name) = Returned (VStr (hello_name name))
        /\ isolated_output (CallHelloName name) = "")
  /\ (isolated_result CallHello = Returned VNone
      /\ isolated_output CallHello = "Hello, World!" +:+ newline)
  /\ (forall (cs : list call) (p : process),
        exists vs : list value,
          exec_calls cs p =
            (Returned vs,
             after_output p (build_string (map isolated_output cs)))
          /\ map Returned vs = map isolated_result cs).
Proof.
  split; [exact exec_call_run|].
  split; [intros name; split; reflexivity|].
  split; [split; reflexivity|].
  induction cs as [|c cs IH]; intros p.
  - exists []. simpl. rewrite after_output_nil. split; reflexivity.
  - destruct (IH (after_output p (isolated_output c))) as (vs & Hrun & Hres).
    assert (Hc : exists v, isolated_result c = Returned v).
    { destruct c; eexists; reflexivity. }
    destruct Hc as (v & Hv).
    exists (v :: vs). split.
    + cbn [exec_calls]. unfold mbind, Py_bind.
      rewrite exec_call_run, Hv, Hrun.
      rewrite after_output_app. reflexivity.
    + cbn [map]. rewrite Hv, Hres. reflexivity.
Qed.

(** C9. The greeting can be read back: without its first seven characters
    and its last one, [hello_name s] is [s]. Hence distinct names give
    distinct greetings. *)
Theorem hello_name_invertible (s t : string) :
  strip_greeting (hello_name s) = s
  /\ (s <> t -> hello_name s <> hello_name t).
Proof.
  split; [apply strip_greeting_hello_name|].
  intros Hne Heq. apply Hne.
  rewrite <- (strip_greeting_hello_name s), <- (strip_greeting_hello_name t).
  rewrite Heq. reflexivity.
Qed.

Lemma hello_name_invertible_witness :
  "Alice" <> "Bob"
  /\ strip_greeting (hello_name "Alice") = "Alice"
  /\ hello_name "Alice" <> hello_name "Bob".
Proof.
  assert (Hne : "Alice" <> "Bob") by discriminate.
  destruct (hello_name_invertible "Alice" "Bob") as (Hback & Hinj).
  split; [exact Hne|]. split; [exact Hback | exact (Hinj Hne)].
Defined.

(** C10. Imported (its [__name__] is the module's name, not ["__main__"]),
    the module returns normally, writes nothing to standard output and
    changes the process in one way only: it binds [hello] and [hello_name]. *)
Theorem import_is_silent (p : process) (name : string) :
  globals p !! "__name__" = Some (VStr name) ->
  name <> "__main__" ->
  module_body p = (Returned tt, with_defs p)
  /\ stdout (snd (module_body p)) = stdout p
  /\ globals (snd (module_body p)) =
       <["hello_name" := VFunc FnHelloName]>
         (<["hello" := VFunc FnHello]> (globals p)).
Proof.
  intros Hname Hne.
  rewrite (module_body_guard p _ Hname). simpl.
  apply String.eqb_neq in Hne. rewrite Hne.
  split; [reflexivity|]. split; reflexivity.
Qed.

Lemma import_is_silent_witness :
  let p := {| globals := {["__name__" := VStr "hello"]}; stdout := "" |} in
  globals p !! "__name__" = Some (VStr "hello")
  /\ "hello" <> "__main__"
  /\ stdout (snd (module_body p)) = ""
  /\ globals (snd (module_body p)) !! "hello" = Some (VFunc FnHello).
Proof.
  intros p.
  assert (Hname : globals p !! "__name__" = Some (VStr "hello")) by reflexivity.
  assert (Hne : "hello" <> "__main__") by discriminate.
  destruct (import_is_silent p "hello" Hname Hne) as (_ & Hout & Hglobals).
  split; [exact Hname|]. split; [exact Hne|].
  split; [rewrite Hout; reflexivity | rewrite Hglobals; reflexivity].
Defined.

(** ** Further properties of the module *)


Lemma count_lines_hello_name name :
  count_lines (hello_name name) = count_lines name.
Proof.
  rewrite hello_name_unfold, !count_lines_app. simpl. lia.
Qed.



(** X1. The greeting is always eight characters longer than the name; so it is
    never empty and never the name itself. *)
Theorem greeting_length (s : string) :
  String.length (hello_name s) = String.length s + 8
  /\ hello_name s <> ""
  /\ hello_name s <> s.
Proof.
  assert (Hlen := hello_name_length s).
  split; [exact Hlen|]. split; intros Heq; rewrite Heq in Hlen.
  - simpl in Hlen. lia.
  - lia.
Qed.

(** X2. The name is not escaped, so its line terminators reach the output:
    the greeting holds as many as the name, and printing it adds one more
    line than the name has terminators. *)
Theorem greeting_lines (s : string) (p : process) :
  count_lines (hello_name s) = count_lines s
  /\ count_lines (stdout (snd (print (hello_name s) p))) =
       count_lines (stdout p) + count_lines s + 1.
Proof.
  split; [apply count_lines_hello_name|].
  rewrite print_run. cbn [snd after_output stdout].
  rewrite !count_lines_app, count_lines_hello_name. simpl. lia.
Qed.







(** X6. Greetings nest: greeting a name [n] times makes it [8 * n] characters
    longer, and stripping [n] times gives the name back. *)
Theorem nested_greeting (n : nat) (s : string) :
  String.length (Nat.iter n hello_name s) = String.length s + 8 * n
  /\ Nat.iter n strip_greeting (Nat.iter n hello_name s) = s.
Proof.
  induction n as [|n [IHlen IHback]]; [split; [simpl; lia | reflexivity]|].
  split.
  - cbn [Nat.iter nat_rect]. change (nat_rect _ s _ n) with (Nat.iter n hello_name s).
    rewrite hello_name_length, IHlen. lia.
  - rewrite Nat.iter_succ_r. cbn [Nat.iter nat_rect].
    change (nat_rect _ s _ n) with (Nat.iter n hello_name s).
    rewrite strip_greeting_hello_name. exact IHback.
Qed.

(** X7. After any sequence of calls the globals are as before and standard
    output holds one more line for each call of [hello]: calls of
    [hello_name] add none. *)
Theorem calls_line_count (cs : list call) (p : process) :
  globals (snd (exec_calls cs p)) = globals p
  /\ count_lines (stdout (snd (exec_calls cs p))) =
       count_lines (stdout p) + count_hello cs.
Proof.
  revert p. induction cs as [|c cs IH]; intros p.
  - split; [reflexivity | simpl; lia].
  - cbn [exec_calls]. unfold mbind, Py_bind. rewrite exec_call_run.
    destruct (IH (after_output p (isolated_output c))) as (Hg & Hl).
    assert (Hc : exists v, isolated_result c = Returned v)
      by (destruct c; eexists; reflexivity).
    destruct Hc as (v & ->).
    destruct (exec_calls cs (after_output p (isolated_output c)))
      as [[vs|e] p'] eqn:Hrun; cbn [snd] in *; unfold mret, Py_ret;
      cbn [snd]; rewrite Hg, Hl; cbn [after_output globals stdout];
      (split; [reflexivity|]);
      rewrite count_lines_app; destruct c; simpl; lia.
Qed.

End Greeter.
